(** * AtCore: the Marlin firmware plugin

    A shallow embedding of [src/plugins/marlinplugin.cpp]: reply
    classification, temperature extraction and command translation; and
    of the axis flags of [src/atcore.h].

    A [QString] is modelled as a [string] whose characters are the code
    points below 256: the replies the plugin classifies are read from the
    serial port, and G-code commands are ASCII text.  How a character is
    written in the local 8-bit encoding is left to a parameter. *)

From Stdlib Require Import String Ascii List Bool Arith ZArith QArith Lia.
From Stdlib Require Import Strings.Byte.
Import ListNotations.
Close Scope Q_scope.
Open Scope string_scope.

(** ** The Qt operations the plugin calls *)

Module Qt.

Definition QString := string.
Definition QStringList := list QString.
Definition QByteArray := list byte.

(** [startsWith s p]: [p] is a prefix of [s]. *)
Fixpoint startsWith (s p : QString) : bool :=
  match p, s with
  | EmptyString, _ => true
  | String _ _, EmptyString => false
  | String b p', String a s' => Ascii.eqb a b && startsWith s' p'
  end.

(** [QString::contains(str)], case sensitive: [str] occurs somewhere in
    [s]. *)
Fixpoint contains (s str : QString) : bool :=
  startsWith s str ||
  match s with
  | EmptyString => false
  | String _ s' => contains s' str
  end.

(** [QString::split(sep)] with the default [KeepEmptyParts]: the fields
    between the occurrences of [sep]; an empty field is kept, so the
    result always has one more element than [s] has separators. *)
Fixpoint split (sep : ascii) (s : QString) : QStringList :=
  match s with
  | EmptyString => [EmptyString]
  | String c s' =>
      if Ascii.eqb c sep then EmptyString :: split sep s'
      else match split sep s' with
           | field :: fields => String c field :: fields
           | [] => [String c EmptyString]
           end
  end.

(** [QString::mid(position)]: the characters from [position] to the
    end; the empty string when [position] is past the end. *)
Fixpoint mid (s : QString) (position : nat) : QString :=
  match position, s with
  | O, _ => s
  | S _, EmptyString => EmptyString
  | S n, String _ s' => mid s' n
  end.

End Qt.

Import Qt.

(** ** The local 8-bit encoding

    [QString::toLocal8Bit()] encodes a string with the codec of the
    locale in force, so the plugin model takes the encoder as a
    parameter.  This module states what the properties below ask of it
    and gives two encoders for evaluating the model on concrete
    commands. *)

Module Local8Bit.

(** The characters of [s] are all ASCII. *)
Definition isAscii (s : QString) : bool :=
  forallb (fun c => (N_of_ascii c <? 128)%N) (list_ascii_of_string s).

(** The character codes of [s], one byte each. *)
Definition codes (s : QString) : QByteArray :=
  map byte_of_ascii (list_ascii_of_string s).

(** An encoder is ASCII compatible when it writes an ASCII string as its
    character codes. *)
Definition asciiCompatible (toLocal8Bit : QString -> QByteArray) : Prop :=
  forall s : QString, isAscii s = true -> toLocal8Bit s = codes s.

(** ISO 8859-1: every character is written as its code. *)
Definition latin1 (s : QString) : QByteArray := codes s.

Definition byte_of_N (n : N) : byte :=
  match Byte.of_N n with
  | Some b => b
  | None => x00
  end.

(** UTF-8, on code points below 256: an ASCII character is written as its
    code, any other as two bytes. *)
Definition utf8 (s : QString) : QByteArray :=
  flat_map (fun c => let n := N_of_ascii c in
                     if (n <? 128)%N then [byte_of_N n]
                     else [byte_of_N (192 + n / 64); byte_of_N (128 + n mod 64)])
           (list_ascii_of_string s).

End Local8Bit.

(** ** Decimal conversion

    [QString::toFloat()] is a Qt library routine.  The plugin model below
    takes the conversion as a parameter; this module gives the instance
    used to evaluate it on concrete lines.  It reads a C-locale decimal
    literal (optional sign, digits with an optional fraction, optional
    exponent, surrounding whitespace ignored), rounds the number it
    denotes to the nearest [double] and that to the nearest [float], ties
    to even, as the conversion through [toDouble] does, and yields the
    value of the [float] as a rational in lowest terms.  A string that is
    not such a literal converts to [0], as Qt reports a failed
    conversion.  Left out, and converted to [0] here: the literals [inf]
    and [nan] and the literals beyond the range of [float], whose values
    are not rationals; the sign of a zero is not kept either. *)

Module Decimal.

Definition digit (c : ascii) : option N :=
  let n := N_of_ascii c in
  if ((48 <=? n) && (n <=? 57))%N then Some (n - 48)%N else None.

(** Reads the leading digits of [s] onto the accumulator [acc]; returns
    the value, the number of digits read and the rest of the string. *)
Fixpoint digits (s : string) (acc : N) (count : nat) : N * nat * string :=
  match s with
  | String c s' =>
      match digit c with
      | Some d => digits s' (10 * acc + d)%N (S count)
      | None => (acc, count, s)
      end
  | EmptyString => (acc, count, s)
  end.

Definition sign (s : string) : bool * string :=
  match s with
  | String "-" s' => (true, s')
  | String "+" s' => (false, s')
  | _ => (false, s)
  end.

Definition isSpace (c : ascii) : bool :=
  let n := N_of_ascii c in
  ((n =? 32) || ((9 <=? n) && (n <=? 13)))%N.

Fixpoint skipSpaces (s : string) : string :=
  match s with
  | String c s' => if isSpace c then skipSpaces s' else s
  | EmptyString => s
  end.

(** [m * 10 ^ e] as a rational in lowest terms. *)
Definition scale (m e : Z) : Q :=
  Qred (if (0 <=? e)%Z then inject_Z (m * 10 ^ e)
        else Qmake m (Z.to_pos (10 ^ (- e)))).

Definition exponent (s : string) : option Z :=
  match s with
  | EmptyString => Some 0%Z
  | String c r =>
      if (Ascii.eqb c "e" || Ascii.eqb c "E")%bool then
        let '(neg, r1) := sign r in
        let '(e, count, r2) := digits r1 0 0 in
        match count, skipSpaces r2 with
        | S _, EmptyString => Some (if neg then (- Z.of_N e)%Z else Z.of_N e)
        | _, _ => None
        end
      else match skipSpaces s with
           | EmptyString => Some 0%Z
           | _ => None
           end
  end.

(** The number a literal denotes, or [None] for a string that is not a
    literal. *)
Definition value (s : QString) : option Q :=
  let '(neg, s1) := sign (skipSpaces s) in
  let '(int_part, int_count, s2) := digits s1 0 0 in
  let '(mantissa, frac_count, s3) :=
    match s2 with
    | String "." r => digits r int_part 0
    | _ => (int_part, O, s2)
    end in
  match (int_count + frac_count)%nat, exponent s3 with
  | S _, Some e =>
      Some (scale (if neg then - Z.of_N mantissa else Z.of_N mantissa)
                  (e - Z.of_nat frac_count))
  | _, _ => None
  end.

(** [q] rounded to the nearest binary floating-point number with [prec]
    bits of precision and least exponent [emin], ties to even; no upper
    bound is applied. *)
Definition nearest (prec emin : Z) (q : Q) : Q :=
  let n := Qnum q in
  let d := Zpos (Qden q) in
  if (n =? 0)%Z then 0%Q
  else
    let a := Z.abs n in
    let e0 := (Z.log2 a - Z.log2 d)%Z in
    let reaches := if (0 <=? e0)%Z then (d * 2 ^ e0 <=? a)%Z
                   else (d <=? a * 2 ^ (- e0))%Z in
    let e := if reaches then e0 else (e0 - 1)%Z in
    let k := Z.max (e - (prec - 1)) emin in
    let num := if (0 <=? k)%Z then a else (a * 2 ^ (- k))%Z in
    let den := if (0 <=? k)%Z then (d * 2 ^ k)%Z else d in
    let quotient := (num / den)%Z in
    let remainder := (num mod den)%Z in
    let m := if ((den <? 2 * remainder) ||
                 ((den =? 2 * remainder) && Z.odd quotient))%Z%bool
             then (quotient + 1)%Z else quotient in
    let m := if (n <? 0)%Z then (- m)%Z else m in
    Qred (if (0 <=? k)%Z then inject_Z (m * 2 ^ k)
          else Qmake m (Z.to_pos (2 ^ (- k)))).

(** The largest [float], [(2 ^ 24 - 1) * 2 ^ 104]. *)
Definition FLT_MAX : Q := inject_Z ((2 ^ 24 - 1) * 2 ^ 104).

Definition toFloat (s : QString) : Q :=
  match value s with
  | Some q =>
      let d := nearest 53 (-1074) q in
      if Qle_bool (Qmake (Z.abs (Qnum d)) (Qden d)) FLT_MAX
      then nearest 24 (-149) d else 0%Q
  | None => 0%Q
  end.

End Decimal.

(** ** The Marlin plugin ([src/plugins/marlinplugin.cpp]) *)

Module MarlinPlugin.

Definition _ok : QString := "ok".
Definition _wait : QString := "wait".
Definition _extruderTemp : QString := "T:".
Definition _bedTemp : QString := "B:".

Definition name : QString := "Marlin".

Section Plugin.

(** The value type of [float] and the conversion [QString::toFloat]. *)
Variable Float : Type.
Variable toFloat : QString -> Float.

(** The conversion [QString::toLocal8Bit] of the locale in force. *)
Variable toLocal8Bit : QString -> QByteArray.

(** The fields of [printerStatus] the plugin assigns. *)
Record PrinterStatus := mkPrinterStatus {
  extruderTemp : Float;
  extruderTargetTemp : Float;
  bedTemp : Float;
  bedTargetTemp : Float
}.

(** The signals the plugin emits, with their argument. *)
Inductive Signal :=
| printerStatusChanged (status : PrinterStatus).

(** The plugin object: its [printerStatus] member and the signals it has
    emitted so far, oldest first. *)
Record Plugin := mkPlugin {
  printerStatus : PrinterStatus;
  emitted : list Signal
}.

(** A member function runs on the plugin object and either returns a
    value with the updated object, or fails: [None] stands for an index
    outside a [QStringList], where [operator[]] asserts in a debug build
    and reads outside the list otherwise. *)
Definition M (A : Type) : Type := Plugin -> option (A * Plugin).

Definition ret {A} (a : A) : M A := fun p => Some (a, p).

Definition bind {A B} (m : M A) (k : A -> M B) : M B :=
  fun p => match m p with
           | Some (a, p') => k a p'
           | None => None
           end.

Notation "x <- m ;; k" := (bind m (fun x => k))
  (at level 61, m at next level, right associativity).
Notation "m ;; k" := (bind m (fun _ => k))
  (at level 61, right associativity).

(** [list[i]] *)
Definition at_ (list : QStringList) (i : nat) : M QString :=
  fun p => match nth_error list i with
           | Some field => Some (field, p)
           | None => None
           end.

Definition modify (f : PrinterStatus -> PrinterStatus) : M unit :=
  fun p => Some (tt, mkPlugin (f (printerStatus p)) (emitted p)).

Definition set_extruderTemp (v : Float) : M unit :=
  modify (fun s => mkPrinterStatus v (extruderTargetTemp s) (bedTemp s) (bedTargetTemp s)).
Definition set_extruderTargetTemp (v : Float) : M unit :=
  modify (fun s => mkPrinterStatus (extruderTemp s) v (bedTemp s) (bedTargetTemp s)).
Definition set_bedTemp (v : Float) : M unit :=
  modify (fun s => mkPrinterStatus (extruderTemp s) (extruderTargetTemp s) v (bedTargetTemp s)).
Definition set_bedTargetTemp (v : Float) : M unit :=
  modify (fun s => mkPrinterStatus (extruderTemp s) (extruderTargetTemp s) (bedTemp s) v).

(** [emit(printerStatusChanged(printerStatus))] *)
Definition emit_printerStatusChanged : M unit :=
  fun p => Some (tt, mkPlugin (printerStatus p)
                              (emitted p ++ [printerStatusChanged (printerStatus p)])).

Definition extractTemp (lastMessage : QString) : M unit :=
  let list := split " " lastMessage in
  f0 <- at_ list 0 ;;
  set_extruderTemp (toFloat (mid f0 2)) ;;
  f1 <- at_ list 1 ;;
  set_extruderTargetTemp (toFloat (mid f1 1)) ;;
  f2 <- at_ list 2 ;;
  set_bedTemp (toFloat (mid f2 2)) ;;
  f3 <- at_ list 3 ;;
  set_bedTargetTemp (toFloat (mid f3 1)) ;;
  emit_printerStatusChanged.

Definition validateCommand (lastMessage : QString) : M bool :=
  if contains lastMessage _extruderTemp || contains lastMessage _bedTemp then
    extractTemp lastMessage ;;
    ret false
  else if contains lastMessage _ok || contains lastMessage _wait then
    ret true
  else
    ret false.

Definition translate (command : QString) : QByteArray :=
  toLocal8Bit command.

Definition readyForNextCommand (lastMessage : QString) : M bool :=
  validateCommand lastMessage.

End Plugin.

Arguments mkPrinterStatus {Float}.
Arguments extruderTemp {Float}.
Arguments extruderTargetTemp {Float}.
Arguments bedTemp {Float}.
Arguments bedTargetTemp {Float}.
Arguments printerStatusChanged {Float}.
Arguments mkPlugin {Float}.
Arguments printerStatus {Float}.
Arguments emitted {Float}.
Arguments extractTemp {Float}.
Arguments validateCommand {Float}.
Arguments readyForNextCommand {Float}.

End MarlinPlugin.

Import MarlinPlugin.

(** ** Sample data *)

(** The report line quoted in [extractTemp]. *)
Definition report : QString := "ok T:185.4 /185.0 B:60.5 /60.0".

(** The same report without the leading acknowledgement. *)
Definition bareReport : QString := "T:185.4 /185.0 B:60.5 /60.0".

(** A plugin object with all temperatures at zero and no signal sent. *)
Definition plugin0 : Plugin Q :=
  mkPlugin (mkPrinterStatus 0%Q 0%Q 0%Q 0%Q) [].

(** The record printed in the report, in [float]: 185.4 rounded, which
    is 6075187 / 32768, then 185, 60.5 and 60. *)
Definition reported : PrinterStatus Q :=
  mkPrinterStatus (6075187 # 32768)%Q 185%Q (121 # 2)%Q 60%Q.

(** ** Replies in sequence *)

(** The condition of the first branch of [validateCommand]: the reply
    contains one of the temperature tokens. *)
Definition hasTemperature (lastMessage : QString) : bool :=
  contains lastMessage _extruderTemp || contains lastMessage _bedTemp.

(** [readyForNextCommand] called on each reply in turn, one call per
    line received; the result is the plugin object left by the last
    call, and there is none once a call has failed. *)
Fixpoint replies {Float : Type} (toFloat : QString -> Float)
    (messages : list QString) (p : Plugin Float) : option (Plugin Float) :=
  match messages with
  | [] => Some p
  | lastMessage :: rest =>
      match readyForNextCommand toFloat lastMessage p with
      | Some (_, p') => replies toFloat rest p'
      | None => None
      end
  end.

(** The claim's reading of a line, not the code's: its
    whitespace-separated tokens.  [fieldsBy] cuts the line at every
    character satisfying [sep]; the tokens are the non-empty pieces
    between white space, so a run of spaces separates like one space and
    leading white space is dropped. *)
Fixpoint fieldsBy (sep : ascii -> bool) (s : QString) : list QString :=
  match s with
  | EmptyString => [EmptyString]
  | String c s' =>
      if sep c then EmptyString :: fieldsBy sep s'
      else match fieldsBy sep s' with
           | field :: fields => String c field :: fields
           | [] => [String c EmptyString]
           end
  end.

Definition whitespaceTokens (s : QString) : list QString :=
  filter (fun token => negb (String.eqb token "")) (fieldsBy Decimal.isSpace s).

(** The report with two spaces after its first field, and with a space
    in front. *)
Definition doubleSpacedReport : QString := "T:185.4  /185.0 B:60.5 /60.0".
Definition leadingSpaceReport : QString := " T:185.4 /185.0 B:60.5 /60.0".

(** The number of space characters in a line. *)
Definition spaces (s : QString) : nat :=
  length (filter (fun c => Ascii.eqb c " ") (list_ascii_of_string s)).

(** ** Axes ([enum AXES] of [src/atcore.h]) *)

Module Axes.

Inductive AXES := X | Y | Z | E.

(** The enumerators' values: [1 << 0], [1 << 1], [1 << 2], [1 << 3]. *)
Definition value (a : AXES) : BinNums.Z :=
  match a with
  | X => BinInt.Z.shiftl 1 0
  | Y => BinInt.Z.shiftl 1 1
  | Z => BinInt.Z.shiftl 1 2
  | E => BinInt.Z.shiftl 1 3
  end.

(** A combination of axes as a caller of [home(uchar axis)] writes it:
    the bitwise or of the enumerators. *)
Definition combine (axes : list AXES) : BinNums.Z :=
  fold_right BinInt.Z.lor 0%Z (map value axes).

(** The test of one axis in a combination: [mask & a]. *)
Definition has (mask : BinNums.Z) (a : AXES) : bool :=
  negb (BinInt.Z.eqb (BinInt.Z.land mask (value a)) 0).

End Axes.

(** * Properties *)

(** ** The Qt operations on sample inputs *)

Example split_report :
split " " "ok T:185.4 /185.0 B:60.5 /60.0"
= ["ok"; "T:185.4"; "/185.0"; "B:60.5"; "/60.0"].
Proof. reflexivity. Qed.

Example split_keeps_empty : split " " "a  b" = ["a"; ""; "b"].
Proof. reflexivity. Qed.

Example mid_past_end : mid "ok" 2 = "" /\ mid "T" 2 = "" /\ mid "T:185.4" 2 = "185.4".
Proof. repeat split. Qed.

Example contains_inside : contains "token" "ok" = true /\ contains "Ok" "ok" = false.
Proof. split; reflexivity. Qed.

Example toFloat_literals :
  Decimal.toFloat "185.4" = (6075187 # 32768)%Q /\ Decimal.toFloat "85.0" = 85%Q /\
  Decimal.toFloat "-1.5e2" = (-150)%Q /\ Decimal.toFloat "60.0 " = 60%Q /\
  Decimal.toFloat "25e-1" = (5 # 2)%Q.
Proof. repeat split; reflexivity. Qed.

Example toFloat_failures :
  Decimal.toFloat "" = 0%Q /\ Decimal.toFloat ":185.4" = 0%Q /\
  Decimal.toFloat "." = 0%Q /\ Decimal.toFloat "1.5x" = 0%Q /\
  Decimal.toFloat "1e" = 0%Q.
Proof. repeat split; reflexivity. Qed.

(** ** Splitting *)

Lemma split_not_nil sep s : split sep s <> [].
Proof.
  destruct s as [|c s]; simpl; [discriminate|].
  destruct (Ascii.eqb c sep); [discriminate|].
  destruct (split sep s); discriminate.
Qed.

(** Splitting distributes over a separator placed between two strings. *)
Lemma split_app sep a b :
  split sep (a ++ String sep b) = (split sep a ++ split sep b)%list.
Proof.
  induction a as [|c a IH]; simpl.
  - now rewrite Ascii.eqb_refl.
  - destruct (Ascii.eqb c sep); rewrite IH; [reflexivity|].
    destruct (split sep a) as [|f fs] eqn:E; [|reflexivity].
    now apply split_not_nil in E.
Qed.

(** ** Temperature extraction *)

Section PluginFacts.

Variable Float : Type.
Variable toFloat : QString -> Float.

(** [extractTemp] reads the fields at positions 0 to 3 of the split line;
    it fails when there are fewer than four, and otherwise assigns the
    four temperatures and emits one signal carrying them. *)
Lemma extractTemp_fields (lastMessage : QString) (p : Plugin Float) :
  extractTemp toFloat lastMessage p =
  match split " " lastMessage with
  | f0 :: f1 :: f2 :: f3 :: _ =>
      let status := mkPrinterStatus (toFloat (mid f0 2)) (toFloat (mid f1 1))
                                    (toFloat (mid f2 2)) (toFloat (mid f3 1)) in
      Some (tt, mkPlugin status (emitted p ++ [printerStatusChanged status]))
  | _ => None
  end.
Proof.
  unfold extractTemp, bind, at_.
  destruct (split " " lastMessage) as [|f0 [|f1 [|f2 [|f3 rest]]]]; reflexivity.
Qed.

Lemma extractTemp_short (lastMessage : QString) (p : Plugin Float) :
  length (split " " lastMessage) < 4 ->
  extractTemp toFloat lastMessage p = None.
Proof.
  rewrite extractTemp_fields.
  destruct (split " " lastMessage) as [|f0 [|f1 [|f2 [|f3 rest]]]];
    simpl; intros H; try reflexivity; lia.
Qed.

(** The outcome of [extractTemp] is a function of the first four fields. *)
Lemma extractTemp_firstn (m1 m2 : QString) (p1 p2 : Plugin Float) :
  firstn 4 (split " " m1) = firstn 4 (split " " m2) ->
  option_map (fun r => printerStatus (snd r)) (extractTemp toFloat m1 p1) =
  option_map (fun r => printerStatus (snd r)) (extractTemp toFloat m2 p2).
Proof.
  rewrite !extractTemp_fields.
  destruct (split " " m1) as [|a0 [|a1 [|a2 [|a3 ra]]]];
    destruct (split " " m2) as [|b0 [|b1 [|b2 [|b3 rb]]]];
    simpl; intros H; try discriminate; try reflexivity.
  now injection H as -> -> -> ->.
Qed.

(** A line with neither temperature token is classified without touching
    the plugin object. *)
Lemma validateCommand_plain (lastMessage : QString) (p : Plugin Float) :
  contains lastMessage _extruderTemp = false ->
  contains lastMessage _bedTemp = false ->
  validateCommand toFloat lastMessage p =
  Some (contains lastMessage _ok || contains lastMessage _wait, p).
Proof.
  intros HT HB. unfold validateCommand. rewrite HT, HB. simpl.
  destruct (contains lastMessage _ok || contains lastMessage _wait); reflexivity.
Qed.

(** A line with a temperature token goes to [extractTemp], and the call
    returns [false] when the extraction returns. *)
Lemma validateCommand_temperature (lastMessage : QString) (p : Plugin Float) :
  contains lastMessage _extruderTemp || contains lastMessage _bedTemp = true ->
  validateCommand toFloat lastMessage p =
  match extractTemp toFloat lastMessage p with
  | Some (_, p') => Some (false, p')
  | None => None
  end.
Proof.
  intros H. unfold validateCommand. rewrite H. unfold bind.
  destruct (extractTemp toFloat lastMessage p) as [[[] p']|]; reflexivity.
Qed.

End PluginFacts.

(** ** Reply classification *)

(** C1, as stated, fails on the report line: it contains [ok], yet
    [readyForNextCommand] returns [false] for it, because a line with a
    temperature token takes the extraction branch. *)
Lemma readyForNextCommand_report_false :
  contains report _ok = true /\
  contains report _extruderTemp = true /\
  option_map fst (readyForNextCommand Decimal.toFloat report plugin0) = Some false /\
  option_map fst (validateCommand Decimal.toFloat report plugin0) = Some false.
Proof. repeat split; reflexivity. Qed.

(** C1 (amended): a reply line that contains [ok] or [wait] and neither
    [T:] nor [B:] is acknowledgement-class: [validateCommand] and
    [readyForNextCommand] return [true] for it and leave the plugin
    object as it was. *)
Theorem readyForNextCommand_acknowledgement
    (Float : Type) (toFloat : QString -> Float)
    (lastMessage : QString) (p : Plugin Float) :
  contains lastMessage _ok || contains lastMessage _wait = true ->
  contains lastMessage _extruderTemp = false ->
  contains lastMessage _bedTemp = false ->
  validateCommand toFloat lastMessage p = Some (true, p) /\
  readyForNextCommand toFloat lastMessage p = Some (true, p).
Proof.
  intros Hack HT HB. unfold readyForNextCommand.
  rewrite (validateCommand_plain _ toFloat lastMessage p HT HB), Hack.
  split; reflexivity.
Qed.

Lemma readyForNextCommand_acknowledgement_witness :
  validateCommand Decimal.toFloat "ok" plugin0 = Some (true, plugin0) /\
  readyForNextCommand Decimal.toFloat "ok" plugin0 = Some (true, plugin0).
Proof.
  apply (readyForNextCommand_acknowledgement Q Decimal.toFloat "ok" plugin0);
    reflexivity.
Defined.

(** A line with a temperature token is never acknowledgement-class. *)
Lemma validateCommand_temperature_not_ready
    (Float : Type) (toFloat : QString -> Float)
    (lastMessage : QString) (p p' : Plugin Float) :
  contains lastMessage _extruderTemp || contains lastMessage _bedTemp = true ->
  validateCommand toFloat lastMessage p <> Some (true, p').
Proof.
  intros H. rewrite (validateCommand_temperature _ toFloat lastMessage p H).
  destruct (extractTemp toFloat lastMessage p) as [[[] q]|]; discriminate.
Qed.

(** C3: on the report line quoted in the source the fields read are
    [ok], [T:185.4], [/185.0] and [B:60.5], one position early: whatever
    the conversion is, the strings converted are the empty string,
    [:185.4], [85.0] and [:60.5].  With the decimal conversion the record
    stored is 0, 0, 85, 0, which is not the record of 185.4, 185.0, 60.5
    and 60.0. *)
Theorem extractTemp_report_shifted :
  (forall (Float : Type) (toFloat : QString -> Float) (p : Plugin Float),
     option_map (fun r => printerStatus (snd r)) (extractTemp toFloat report p) =
     Some (mkPrinterStatus (toFloat "") (toFloat ":185.4")
                           (toFloat "85.0") (toFloat ":60.5"))) /\
  (forall p : Plugin Q,
     option_map (fun r => printerStatus (snd r))
                (extractTemp Decimal.toFloat report p) =
     Some (mkPrinterStatus 0%Q 0%Q 85%Q 0%Q)) /\
  (forall p : Plugin Q,
     option_map (fun r => printerStatus (snd r))
                (extractTemp Decimal.toFloat report p) <>
     Some (mkPrinterStatus (Decimal.toFloat "185.4") (Decimal.toFloat "185.0")
                           (Decimal.toFloat "60.5") (Decimal.toFloat "60.0"))).
Proof.
  split; [|split].
  - intros Float toFloat p. rewrite extractTemp_fields. reflexivity.
  - intros p. rewrite extractTemp_fields. vm_compute. reflexivity.
  - intros p. rewrite extractTemp_fields. vm_compute. discriminate.
Qed.

(** On the report without the leading [ok] the four values are the ones
    printed in it: the [float] nearest 185.4, then 185, 60.5 and 60, as
    fractions in lowest terms. *)
Lemma extractTemp_bareReport (p : Plugin Q) :
  option_map (fun r => printerStatus (snd r))
             (extractTemp Decimal.toFloat bareReport p) =
  Some (mkPrinterStatus (6075187 # 32768)%Q 185%Q (121 # 2)%Q 60%Q).
Proof. rewrite extractTemp_fields. reflexivity. Qed.

(** C4: a reply with a temperature token and fewer than four
    space-separated fields makes classification fail: [extractTemp]
    indexes the field list past its end, and neither [validateCommand]
    nor [readyForNextCommand] returns. *)
Theorem validateCommand_short_report_fails
    (Float : Type) (toFloat : QString -> Float)
    (lastMessage : QString) (p : Plugin Float) :
  contains lastMessage _extruderTemp || contains lastMessage _bedTemp = true ->
  length (split " " lastMessage) < 4 ->
  validateCommand toFloat lastMessage p = None /\
  readyForNextCommand toFloat lastMessage p = None.
Proof.
  intros Htemp Hshort. unfold readyForNextCommand.
  rewrite (validateCommand_temperature _ toFloat lastMessage p Htemp).
  rewrite (extractTemp_short _ toFloat lastMessage p Hshort).
  split; reflexivity.
Qed.

Lemma validateCommand_short_report_fails_witness :
  validateCommand Decimal.toFloat "T:185.4 /185.0" plugin0 = None /\
  readyForNextCommand Decimal.toFloat "T:185.4 /185.0" plugin0 = None.
Proof.
  apply (validateCommand_short_report_fails Q Decimal.toFloat
           "T:185.4 /185.0" plugin0).
  - reflexivity.
  - simpl. lia.
Defined.

(** C5, as stated, fails on the line [wait]: it contains [wait] and no
    [ok], and [readyForNextCommand] answers [true] for it, the same
    answer as for [ok]. *)
Lemma readyForNextCommand_wait_true :
  contains "wait" _wait = true /\
  contains "wait" _ok = false /\
  readyForNextCommand Decimal.toFloat "wait" plugin0 = Some (true, plugin0) /\
  readyForNextCommand Decimal.toFloat "wait" plugin0 =
  readyForNextCommand Decimal.toFloat "ok" plugin0.
Proof. repeat split; reflexivity. Qed.

(** C5 (amended): the plugin does not tell [wait] from [ok].  For a
    reply containing [wait], no [ok] and no temperature token,
    [readyForNextCommand] returns [true], so the reply permits the next
    command; and whenever [readyForNextCommand] returns [true] the reply
    contains [ok] or [wait]. *)
Theorem readyForNextCommand_wait
    (Float : Type) (toFloat : QString -> Float)
    (lastMessage : QString) (p : Plugin Float) :
  contains lastMessage _wait = true ->
  contains lastMessage _ok = false ->
  contains lastMessage _extruderTemp = false ->
  contains lastMessage _bedTemp = false ->
  readyForNextCommand toFloat lastMessage p = Some (true, p) /\
  (forall (other : QString) (q q' : Plugin Float),
     readyForNextCommand toFloat other q = Some (true, q') ->
     contains other _ok || contains other _wait = true).
Proof.
  intros Hwait Hok HT HB. split.
  - unfold readyForNextCommand.
    rewrite (validateCommand_plain _ toFloat lastMessage p HT HB), Hwait, Hok.
    reflexivity.
  - intros other q q' H. unfold readyForNextCommand in H.
    destruct (contains other _extruderTemp || contains other _bedTemp) eqn:E.
    + rewrite (validateCommand_temperature _ toFloat other q E) in H.
      destruct (extractTemp toFloat other q) as [[[] r]|]; discriminate.
    + apply orb_false_elim in E as [HT' HB'].
      rewrite (validateCommand_plain _ toFloat other q HT' HB') in H.
      now injection H as -> _.
Qed.

Lemma readyForNextCommand_wait_witness :
  readyForNextCommand Decimal.toFloat "wait" plugin0 = Some (true, plugin0) /\
  (forall (other : QString) (q q' : Plugin Q),
     readyForNextCommand Decimal.toFloat other q = Some (true, q') ->
     contains other _ok || contains other _wait = true).
Proof.
  apply (readyForNextCommand_wait Q Decimal.toFloat "wait" plugin0);
    reflexivity.
Defined.

(** ** Translation of outgoing commands *)

Lemma byte_of_ascii_to_N (c : ascii) :
  Byte.to_N (byte_of_ascii c) = N_of_ascii c.
Proof. apply Byte.to_of_N. symmetry. apply byte_of_ascii_via_N. Qed.

Lemma latin1_asciiCompatible : Local8Bit.asciiCompatible Local8Bit.latin1.
Proof. intros s _. reflexivity. Qed.

Lemma utf8_asciiCompatible : Local8Bit.asciiCompatible Local8Bit.utf8.
Proof.
  intros s. unfold Local8Bit.isAscii, Local8Bit.utf8, Local8Bit.codes.
  induction (list_ascii_of_string s) as [|c l IH];
    cbn [flat_map map forallb]; [reflexivity|].
  intros H. apply andb_true_iff in H as [Hc Hl].
  rewrite (IH Hl). cbv zeta. rewrite Hc. cbn [app]. f_equal.
  unfold Local8Bit.byte_of_N. now rewrite <- byte_of_ascii_via_N.
Qed.

(** The two encoders differ outside ASCII. *)
Example latin1_utf8_differ :
  Local8Bit.latin1 (String "233" "") = [xe9] /\
  Local8Bit.utf8 (String "233" "") = [xc3; xa9].
Proof. split; reflexivity. Qed.

(** The codes of an ASCII string hold a byte [b] only as the code of one
    of its characters. *)
Lemma codes_In (s : QString) (b : byte) :
  In b (Local8Bit.codes s) -> In (ascii_of_byte b) (list_ascii_of_string s).
Proof.
  unfold Local8Bit.codes. intros H. apply in_map_iff in H as (c & <- & Hc).
  now rewrite ascii_of_byte_of_ascii.
Qed.

(** C6, as stated, fails on [G28]: [translate] yields the three bytes of
    the command and no newline after them, with either encoder. *)
Lemma translate_G28_no_newline :
  translate Local8Bit.latin1 "G28" = [x47; x32; x38] /\
  translate Local8Bit.utf8 "G28" = [x47; x32; x38] /\
  translate Local8Bit.latin1 "G28" <> [x47; x32; x38; x0a].
Proof. split; [reflexivity | split; [reflexivity | discriminate]]. Qed.

(** C6 (amended): for every command, [translate] produces the
    command's local 8-bit encoding and nothing after it.  With an
    ASCII-compatible encoder a command of ASCII characters is thus
    written as its character codes, and a newline byte stands in the
    output only where the command itself has a newline character: no
    terminator is added. *)
Theorem translate_no_terminator
    (toLocal8Bit : QString -> QByteArray) (command : QString) :
  translate toLocal8Bit command = toLocal8Bit command /\
  (Local8Bit.asciiCompatible toLocal8Bit ->
   Local8Bit.isAscii command = true ->
   translate toLocal8Bit command = Local8Bit.codes command /\
   (In x0a (translate toLocal8Bit command) ->
    In "010"%char (list_ascii_of_string command))).
Proof.
  split; [reflexivity|].
  intros Hcodec Hascii. unfold translate. rewrite (Hcodec command Hascii).
  split; [reflexivity|]. intros H. now apply codes_In in H.
Qed.

Lemma translate_no_terminator_witness :
  translate Local8Bit.utf8 "G28" = Local8Bit.utf8 "G28" /\
  translate Local8Bit.utf8 "G28" = Local8Bit.codes "G28" /\
  (In x0a (translate Local8Bit.utf8 "G28") ->
   In "010"%char (list_ascii_of_string "G28")).
Proof.
  destruct (translate_no_terminator Local8Bit.utf8 "G28") as [Hall Hascii].
  split; [exact Hall|].
  apply Hascii; [exact utf8_asciiCompatible | reflexivity].
Defined.

(** ** Temperature parsing *)

(** C8: parsing is idempotent.  When [extractTemp] accepts a line, a
    second run on the same line returns as well and leaves the same
    temperature record as the first. *)
Theorem extractTemp_idempotent
    (Float : Type) (toFloat : QString -> Float)
    (lastMessage : QString) (p p' : Plugin Float) :
  extractTemp toFloat lastMessage p = Some (tt, p') ->
  exists p'', extractTemp toFloat lastMessage p' = Some (tt, p'') /\
              printerStatus p'' = printerStatus p'.
Proof.
  rewrite !extractTemp_fields.
  destruct (split " " lastMessage) as [|f0 [|f1 [|f2 [|f3 rest]]]];
    try discriminate.
  cbv zeta. intros H. injection H as <-. eexists. split; reflexivity.
Qed.

Lemma extractTemp_idempotent_witness :
  exists p'',
    extractTemp Decimal.toFloat bareReport
      (mkPlugin (mkPrinterStatus (6075187 # 32768)%Q 185%Q (121 # 2)%Q 60%Q)
                [printerStatusChanged
                   (mkPrinterStatus (6075187 # 32768)%Q 185%Q (121 # 2)%Q 60%Q)])
    = Some (tt, p'') /\
    printerStatus p'' = mkPrinterStatus (6075187 # 32768)%Q 185%Q (121 # 2)%Q 60%Q.
Proof.
  apply (extractTemp_idempotent Q Decimal.toFloat bareReport plugin0).
  reflexivity.
Defined.

(** The record left by [extractTemp] does not depend on the record
    before the call. *)
Lemma extractTemp_overwrites
    (Float : Type) (toFloat : QString -> Float)
    (lastMessage : QString) (p q : Plugin Float) :
  option_map (fun r => printerStatus (snd r)) (extractTemp toFloat lastMessage p) =
  option_map (fun r => printerStatus (snd r)) (extractTemp toFloat lastMessage q).
Proof. now apply extractTemp_firstn. Qed.

(** C9: on the bed-only report [B:60.5 /60.0], a reply that contains
    [B:], [validateCommand] fails in [extractTemp] before the [emit] is
    reached: no [printerStatusChanged] is sent. *)
Theorem validateCommand_bed_report_fails
    (Float : Type) (toFloat : QString -> Float) (p : Plugin Float) :
  contains "B:60.5 /60.0" _bedTemp = true /\
  validateCommand toFloat "B:60.5 /60.0" p = None.
Proof. split; reflexivity. Qed.

(** A reply with a temperature token and at least four fields sends
    exactly one [printerStatusChanged], carrying the record just stored,
    whether or not that record differs from the one before. *)
Lemma validateCommand_emits_once
    (Float : Type) (toFloat : QString -> Float)
    (lastMessage : QString) (p : Plugin Float) :
  contains lastMessage _extruderTemp || contains lastMessage _bedTemp = true ->
  4 <= length (split " " lastMessage) ->
  exists status,
    validateCommand toFloat lastMessage p =
    Some (false, mkPlugin status (emitted p ++ [printerStatusChanged status])).
Proof.
  intros Htemp Hlen.
  rewrite (validateCommand_temperature _ toFloat lastMessage p Htemp).
  rewrite extractTemp_fields.
  destruct (split " " lastMessage) as [|f0 [|f1 [|f2 [|f3 rest]]]];
    simpl in Hlen; try lia.
  eexists. reflexivity.
Qed.

(** An unchanged report is signalled again: the second of two identical
    reports sends a second signal. *)
Example validateCommand_repeated_report :
  match validateCommand Decimal.toFloat bareReport plugin0 with
  | Some (_, p1) =>
      match validateCommand Decimal.toFloat bareReport p1 with
      | Some (_, p2) =>
          printerStatus p2 = printerStatus p1 /\
          length (emitted p1) = 1 /\ length (emitted p2) = 2
      | None => False
      end
  | None => False
  end.
Proof. vm_compute. repeat split. Qed.

(** C10, as stated, fails: the report, the report with two spaces after
    its first field and the report with a space in front have the same
    four whitespace-separated tokens, yet [extractTemp] stores the
    targets and the bed temperature 185, 60.5, 60 for the first and
    0, 85, 0 for the other two. *)
Lemma extractTemp_same_tokens_differ :
  whitespaceTokens bareReport = ["T:185.4"; "/185.0"; "B:60.5"; "/60.0"] /\
  whitespaceTokens doubleSpacedReport = whitespaceTokens bareReport /\
  whitespaceTokens leadingSpaceReport = whitespaceTokens bareReport /\
  option_map (fun r => let status := printerStatus (snd r) in
                       (extruderTargetTemp status, bedTemp status,
                        bedTargetTemp status))
             (extractTemp Decimal.toFloat bareReport plugin0)
  = Some (185%Q, (121 # 2)%Q, 60%Q) /\
  option_map (fun r => let status := printerStatus (snd r) in
                       (extruderTargetTemp status, bedTemp status,
                        bedTargetTemp status))
             (extractTemp Decimal.toFloat doubleSpacedReport plugin0)
  = Some (0%Q, 85%Q, 0%Q) /\
  option_map (fun r => let status := printerStatus (snd r) in
                       (extruderTargetTemp status, bedTemp status,
                        bedTargetTemp status))
             (extractTemp Decimal.toFloat leadingSpaceReport plugin0)
  = Some (0%Q, 85%Q, 0%Q).
Proof. vm_compute. repeat split. Qed.

(** C10 (amended): the temperature record depends only on the first four
    fields of the line cut at every single space, empty fields kept.
    Two lines whose first four such fields are equal give the same
    outcome, whatever follows the fourth field and whatever the plugin
    objects held before. *)
Theorem extractTemp_first_four_fields
    (Float : Type) (toFloat : QString -> Float)
    (m1 m2 : QString) (p1 p2 : Plugin Float) :
  firstn 4 (split " " m1) = firstn 4 (split " " m2) ->
  option_map (fun r => printerStatus (snd r)) (extractTemp toFloat m1 p1) =
  option_map (fun r => printerStatus (snd r)) (extractTemp toFloat m2 p2).
Proof. apply extractTemp_firstn. Qed.

Lemma extractTemp_first_four_fields_witness :
  option_map (fun r => printerStatus (snd r))
             (extractTemp Decimal.toFloat bareReport plugin0) =
  option_map (fun r => printerStatus (snd r))
             (extractTemp Decimal.toFloat "T:185.4 /185.0 B:60.5 /60.0 @:0 B@:0"
                          plugin0).
Proof.
  apply (extractTemp_first_four_fields Q Decimal.toFloat bareReport
           "T:185.4 /185.0 B:60.5 /60.0 @:0 B@:0" plugin0 plugin0).
  reflexivity.
Defined.

(** Text appended after a fourth field is ignored. *)
Lemma extractTemp_ignores_tail
    (Float : Type) (toFloat : QString -> Float)
    (lastMessage extra : QString) (p : Plugin Float) :
  4 <= length (split " " lastMessage) ->
  option_map (fun r => printerStatus (snd r))
             (extractTemp toFloat (lastMessage ++ String " " extra) p) =
  option_map (fun r => printerStatus (snd r))
             (extractTemp toFloat lastMessage p).
Proof.
  intros Hlen. apply extractTemp_firstn.
  rewrite split_app, firstn_app.
  replace (4 - length (split " " lastMessage)) with 0 by lia.
  simpl. apply app_nil_r.
Qed.

(** ** Substrings and fields *)

Lemma startsWith_app (t b : QString) : startsWith (t ++ b) t = true.
Proof.
  induction t as [|c t IH]; simpl; [now destruct b|].
  now rewrite Ascii.eqb_refl, IH.
Qed.

Lemma startsWith_inv (s t : QString) :
  startsWith s t = true -> exists b, s = t ++ b.
Proof.
  revert s. induction t as [|c t IH]; intros s H.
  - now exists s.
  - destruct s as [|a s]; simpl in H; [discriminate|].
    apply andb_true_iff in H as [Hc H].
    apply Ascii.eqb_eq in Hc as ->.
    destruct (IH s H) as [b ->]. now exists b.
Qed.

Lemma contains_unfold (s t : QString) :
  contains s t =
  startsWith s t || match s with
                    | EmptyString => false
                    | String _ s' => contains s' t
                    end.
Proof. destruct s; reflexivity. Qed.

(** [contains] is the substring test. *)
Lemma contains_iff (s t : QString) :
  contains s t = true <-> exists a b, s = a ++ t ++ b.
Proof.
  split.
  - induction s as [|c s IH]; rewrite contains_unfold; intros H.
    + rewrite orb_false_r in H. destruct (startsWith_inv _ _ H) as [b ->].
      now exists "", b.
    + apply orb_true_iff in H as [H|H].
      * destruct (startsWith_inv _ _ H) as [b ->]. now exists "", b.
      * destruct (IH H) as (a & b & ->). now exists (String c a), b.
  - intros (a & b & ->). induction a as [|c a IH].
    + cbn [append]. rewrite contains_unfold, startsWith_app. reflexivity.
    + cbn [append]. rewrite contains_unfold, IH. apply orb_true_r.
Qed.

(** A line has one field more than it has separators. *)
Lemma split_length (s : QString) :
  length (split " " s) = S (spaces s).
Proof.
  unfold spaces. induction s as [|c s IH]; simpl; [reflexivity|].
  destruct (Ascii.eqb c " "); simpl; [now rewrite IH|].
  destruct (split " " s) as [|f fs] eqn:E; [now apply split_not_nil in E|].
  simpl in *. exact IH.
Qed.

(** A word without a space is a single field. *)
Lemma split_word (w : QString) :
  spaces w = 0 -> split " " w = [w].
Proof.
  intros H. pose proof (split_length w) as L. rewrite H in L.
  clear H. revert L. induction w as [|c w IH]; simpl; [reflexivity|].
  destruct (Ascii.eqb c " "); simpl.
  - intros L. injection L as L.
    destruct (split " " w) eqn:E; [now apply split_not_nil in E | discriminate].
  - destruct (split " " w) as [|f fs] eqn:E; [now apply split_not_nil in E|].
    simpl. intros L. now injection (IH L) as -> ->.
Qed.

(** ** One reply: when the call returns, and what it answers *)

(** X1: [validateCommand] answers [true] exactly for a reply that
    contains [ok] or [wait] and no temperature token, and then it leaves
    the plugin object untouched. *)
Theorem validateCommand_true_iff
    (Float : Type) (toFloat : QString -> Float)
    (lastMessage : QString) (p p' : Plugin Float) :
  validateCommand toFloat lastMessage p = Some (true, p') <->
  (contains lastMessage _ok || contains lastMessage _wait = true /\
   hasTemperature lastMessage = false /\ p' = p).
Proof.
  unfold hasTemperature.
  destruct (contains lastMessage _extruderTemp || contains lastMessage _bedTemp)
    eqn:E.
  - split.
    + intros H. now apply validateCommand_temperature_not_ready in H.
    + intros (_ & H & _). discriminate.
  - pose proof E as E'. apply orb_false_elim in E' as [HT HB].
    rewrite (validateCommand_plain _ toFloat lastMessage p HT HB). split.
    + intros H. injection H as -> ->. repeat split.
    + intros (-> & _ & ->). reflexivity.
Qed.

(** X2: [validateCommand] returns exactly when the reply has no
    temperature token or has at least three spaces, that is four
    fields; a temperature reply with fewer spaces fails. *)
Theorem validateCommand_returns_iff
    (Float : Type) (toFloat : QString -> Float)
    (lastMessage : QString) (p : Plugin Float) :
  validateCommand toFloat lastMessage p <> None <->
  (hasTemperature lastMessage = false \/ 3 <= spaces lastMessage).
Proof.
  unfold hasTemperature.
  pose proof (split_length lastMessage) as L.
  destruct (contains lastMessage _extruderTemp || contains lastMessage _bedTemp)
    eqn:E.
  - rewrite (validateCommand_temperature _ toFloat lastMessage p E).
    rewrite extractTemp_fields.
    destruct (split " " lastMessage) as [|f0 [|f1 [|f2 [|f3 rest]]]];
      simpl in L; split; intros H;
      try (exfalso; now apply H);
      try (destruct H as [H|H]; [discriminate | exfalso; lia]);
      try (right; lia); discriminate.
  - apply orb_false_elim in E as [HT HB].
    rewrite (validateCommand_plain _ toFloat lastMessage p HT HB).
    split; [now left | discriminate].
Qed.

(** X3: the tokens are looked for anywhere in the line.  A reply with
    [ok] or [wait] inside it, whatever stands before and after, is
    acknowledged, provided the line has no temperature token. *)
Theorem readyForNextCommand_token_anywhere
    (Float : Type) (toFloat : QString -> Float)
    (before after token : QString) (p : Plugin Float) :
  token = _ok \/ token = _wait ->
  hasTemperature (before ++ token ++ after) = false ->
  readyForNextCommand toFloat (before ++ token ++ after) p = Some (true, p).
Proof.
  intros Htoken Htemp. unfold readyForNextCommand.
  apply orb_false_elim in Htemp as [HT HB].
  rewrite (validateCommand_plain _ toFloat _ p HT HB).
  replace (contains (before ++ token ++ after) _ok
           || contains (before ++ token ++ after) _wait) with true;
    [reflexivity|].
  symmetry. apply orb_true_iff.
  destruct Htoken as [-> | ->]; [left | right];
    apply contains_iff; now exists before, after.
Qed.

Lemma readyForNextCommand_token_anywhere_witness :
  readyForNextCommand Decimal.toFloat ("echo:unknown command l" ++ "ok" ++ "up")
                      plugin0 = Some (true, plugin0).
Proof.
  apply (readyForNextCommand_token_anywhere Q Decimal.toFloat
           "echo:unknown command l" "up" "ok" plugin0).
  - left. reflexivity.
  - reflexivity.
Defined.

(** X4: [extractTemp] does not look at the characters it strips.  Two
    lines whose first four fields agree after their first two, one, two
    and one characters store the same record: which value goes to which
    heater is decided by the position of the field, not by its token. *)
Theorem extractTemp_prefix_unchecked
    (Float : Type) (toFloat : QString -> Float)
    (m1 m2 : QString) (p1 p2 : Plugin Float)
    (a0 a1 a2 a3 b0 b1 b2 b3 : QString) (ra rb : QStringList) :
  split " " m1 = a0 :: a1 :: a2 :: a3 :: ra ->
  split " " m2 = b0 :: b1 :: b2 :: b3 :: rb ->
  mid a0 2 = mid b0 2 -> mid a1 1 = mid b1 1 ->
  mid a2 2 = mid b2 2 -> mid a3 1 = mid b3 1 ->
  exists status,
    option_map (fun r => printerStatus (snd r)) (extractTemp toFloat m1 p1)
    = Some status /\
    option_map (fun r => printerStatus (snd r)) (extractTemp toFloat m2 p2)
    = Some status.
Proof.
  intros E1 E2 H0 H1 H2 H3. rewrite !extractTemp_fields, E1, E2.
  cbv zeta. simpl. rewrite H0, H1, H2, H3. eexists. split; reflexivity.
Qed.

Lemma extractTemp_prefix_unchecked_witness :
  exists status,
    option_map (fun r => printerStatus (snd r))
               (extractTemp Decimal.toFloat bareReport plugin0) = Some status /\
    option_map (fun r => printerStatus (snd r))
               (extractTemp Decimal.toFloat "B:185.4 x185.0 T:60.5 :60.0" plugin0)
    = Some status.
Proof.
  apply (extractTemp_prefix_unchecked Q Decimal.toFloat
           bareReport "B:185.4 x185.0 T:60.5 :60.0" plugin0 plugin0
           "T:185.4" "/185.0" "B:60.5" "/60.0"
           "B:185.4" "x185.0" "T:60.5" ":60.0" [] []); reflexivity.
Defined.

(** X5: a word put in front of a report moves every value one field to
    the right.  With a space-free word [w] before the line, the extruder
    temperature is read from [w], the extruder target from the first
    field of the line, the bed temperature from the second and the bed
    target from the third; the fourth field is not read. *)
Theorem extractTemp_leading_word
    (Float : Type) (toFloat : QString -> Float)
    (w lastMessage : QString) (p : Plugin Float) :
  spaces w = 0 ->
  option_map (fun r => printerStatus (snd r))
             (extractTemp toFloat (w ++ String " " lastMessage) p) =
  match split " " lastMessage with
  | f0 :: f1 :: f2 :: _ =>
      Some (mkPrinterStatus (toFloat (mid w 2)) (toFloat (mid f0 1))
                            (toFloat (mid f1 2)) (toFloat (mid f2 1)))
  | _ => None
  end.
Proof.
  intros Hw. rewrite extractTemp_fields, split_app, (split_word w Hw).
  simpl. destruct (split " " lastMessage) as [|f0 [|f1 [|f2 rest]]]; reflexivity.
Qed.

Lemma extractTemp_leading_word_witness :
  option_map (fun r => printerStatus (snd r))
             (extractTemp Decimal.toFloat ("ok" ++ String " " bareReport) plugin0) =
  Some (mkPrinterStatus 0%Q 0%Q 85%Q 0%Q).
Proof.
  apply (extractTemp_leading_word Q Decimal.toFloat "ok" bareReport plugin0).
  reflexivity.
Defined.

(** ** Replies in sequence *)

Section RepliesFacts.

Variable Float : Type.
Variable toFloat : QString -> Float.

(** What one call does to the plugin object. *)
Lemma readyForNextCommand_cases (lastMessage : QString) (p p' : Plugin Float) (b : bool) :
  readyForNextCommand toFloat lastMessage p = Some (b, p') ->
  (hasTemperature lastMessage = false /\ p' = p) \/
  (hasTemperature lastMessage = true /\
   extractTemp toFloat lastMessage p = Some (tt, p') /\
   exists status,
     p' = mkPlugin status (emitted p ++ [printerStatusChanged status])).
Proof.
  unfold readyForNextCommand, hasTemperature.
  destruct (contains lastMessage _extruderTemp || contains lastMessage _bedTemp)
    eqn:E; intros H.
  - right. split; [reflexivity|].
    rewrite (validateCommand_temperature _ toFloat lastMessage p E) in H.
    destruct (extractTemp toFloat lastMessage p) as [[[] q]|] eqn:X;
      [|discriminate].
    injection H as _ <-. split; [reflexivity|].
    rewrite extractTemp_fields in X.
    destruct (split " " lastMessage) as [|f0 [|f1 [|f2 [|f3 rest]]]];
      try discriminate.
    cbv zeta in X. injection X as <-. eexists. reflexivity.
  - left. split; [reflexivity|].
    apply orb_false_elim in E as [HT HB].
    rewrite (validateCommand_plain _ toFloat lastMessage p HT HB) in H.
    now injection H as _ <-.
Qed.

Lemma replies_app (l1 l2 : list QString) :
  forall p : Plugin Float,
    replies toFloat (l1 ++ l2)%list p =
    match replies toFloat l1 p with
    | Some q => replies toFloat l2 q
    | None => None
    end.
Proof.
  induction l1 as [|m l1 IH]; intros p; simpl; [reflexivity|].
  destruct (readyForNextCommand toFloat m p) as [[b q]|]; [apply IH | reflexivity].
Qed.

(** Replies without a temperature token leave the plugin object alone. *)
Lemma replies_plain (l : list QString) (p : Plugin Float) :
  forallb (fun m => negb (hasTemperature m)) l = true ->
  replies toFloat l p = Some p.
Proof.
  induction l as [|m l IH]; simpl; [reflexivity|].
  intros H. apply andb_true_iff in H as [Hm Hl].
  apply negb_true_iff in Hm. unfold hasTemperature in Hm.
  apply orb_false_elim in Hm as [HT HB]. unfold readyForNextCommand.
  rewrite (validateCommand_plain _ toFloat m p HT HB). now apply IH.
Qed.

Lemma filter_nil_forallb (l : list QString) :
  length (filter hasTemperature l) = 0 ->
  forallb (fun m => negb (hasTemperature m)) l = true.
Proof.
  induction l as [|m l IH]; simpl; [reflexivity|].
  destruct (hasTemperature m); simpl; [discriminate | exact IH].
Qed.

(** The signals of a run: the old ones, then one for each temperature
    reply. *)
Lemma replies_emitted (l : list QString) :
  forall p p' : Plugin Float,
    replies toFloat l p = Some p' ->
    exists new, emitted p' = (emitted p ++ new)%list /\
                length new = length (filter hasTemperature l).
Proof.
  induction l as [|m l IH]; simpl; intros p p' H.
  - injection H as <-. exists []. now rewrite app_nil_r.
  - destruct (readyForNextCommand toFloat m p) as [[b q]|] eqn:R; [|discriminate].
    destruct (IH q p' H) as (new & Hnew & Hlen).
    destruct (readyForNextCommand_cases m p q b R)
      as [[Ht ->] | (Ht & _ & status & ->)]; rewrite Ht.
    + now exists new.
    + exists (printerStatusChanged status :: new). simpl in *.
      rewrite Hnew, <- app_assoc. simpl. now rewrite Hlen.
Qed.

Lemma replies_latest (l : list QString) :
  forall p p' : Plugin Float,
    replies toFloat l p = Some p' ->
    last (emitted p) (printerStatusChanged (printerStatus p))
    = printerStatusChanged (printerStatus p) ->
    last (emitted p') (printerStatusChanged (printerStatus p'))
    = printerStatusChanged (printerStatus p').
Proof.
  induction l as [|m l IH]; simpl; intros p p' H Hp.
  - now injection H as <-.
  - destruct (readyForNextCommand toFloat m p) as [[b q]|] eqn:R; [|discriminate].
    apply (IH q p' H).
    destruct (readyForNextCommand_cases m p q b R)
      as [[_ ->] | (_ & _ & status & ->)]; [exact Hp|].
    simpl. apply last_last.
Qed.

End RepliesFacts.

(** X6: the last temperature reply wins.  After a run of replies that
    all return, the temperature record is the one parsed from the last
    reply with a temperature token, whatever came before it and whatever
    replies without such a token came after. *)
Theorem replies_last_report
    (Float : Type) (toFloat : QString -> Float)
    (before after : list QString) (lastReport : QString)
    (p p' q : Plugin Float) :
  replies toFloat (before ++ lastReport :: after) p = Some p' ->
  hasTemperature lastReport = true ->
  forallb (fun m => negb (hasTemperature m)) after = true ->
  option_map (fun r => printerStatus (snd r)) (extractTemp toFloat lastReport q)
  = Some (printerStatus p').
Proof.
  intros Hrun Ht Hafter. rewrite replies_app in Hrun.
  destruct (replies toFloat before p) as [p1|]; [|discriminate].
  simpl in Hrun.
  destruct (readyForNextCommand toFloat lastReport p1) as [[b p2]|] eqn:R;
    [|discriminate].
  rewrite (replies_plain _ toFloat after p2 Hafter) in Hrun.
  injection Hrun as <-.
  destruct (readyForNextCommand_cases _ toFloat lastReport p1 p2 b R)
    as [[Hf _] | (_ & X & _)]; [congruence|].
  rewrite (extractTemp_firstn _ toFloat lastReport lastReport q p1 eq_refl), X.
  reflexivity.
Qed.

Lemma replies_last_report_witness :
  option_map (fun r => printerStatus (snd r))
             (extractTemp Decimal.toFloat bareReport plugin0)
  = Some (printerStatus (mkPlugin reported
                           [printerStatusChanged
                              (mkPrinterStatus (10538189 # 524288)%Q 0%Q (5190451 # 262144)%Q 0%Q);
                            printerStatusChanged reported])).
Proof.
  apply (replies_last_report Q Decimal.toFloat
           ["ok"; "T:20.1 /0.0 B:19.8 /0.0"] ["wait"; "ok"] bareReport
           plugin0
           (mkPlugin reported
              [printerStatusChanged
                 (mkPrinterStatus (10538189 # 524288)%Q 0%Q (5190451 # 262144)%Q 0%Q);
               printerStatusChanged reported])
           plugin0); vm_compute; reflexivity.
Defined.

(** X7: a run of replies that all return only appends to the signals
    sent: the earlier signals stay as they were, and the number added is
    the number of replies with a temperature token. *)
Theorem replies_signal_count
    (Float : Type) (toFloat : QString -> Float)
    (messages : list QString) (p p' : Plugin Float) :
  replies toFloat messages p = Some p' ->
  firstn (length (emitted p)) (emitted p') = emitted p /\
  length (emitted p') =
  length (emitted p) + length (filter hasTemperature messages).
Proof.
  intros H. destruct (replies_emitted _ toFloat messages p p' H)
    as (new & -> & <-).
  split.
  - rewrite firstn_app, firstn_all, Nat.sub_diag. simpl. apply app_nil_r.
  - apply length_app.
Qed.

Lemma replies_signal_count_witness :
  firstn (length (emitted plugin0))
         [printerStatusChanged reported; printerStatusChanged reported]
  = emitted plugin0 /\
  length [printerStatusChanged reported; printerStatusChanged reported] =
  length (emitted plugin0) +
  length (filter hasTemperature ["ok"; bareReport; "wait"; bareReport]).
Proof.
  apply (replies_signal_count Q Decimal.toFloat
           ["ok"; bareReport; "wait"; bareReport] plugin0
           (mkPlugin reported
              [printerStatusChanged reported; printerStatusChanged reported])).
  vm_compute. reflexivity.
Defined.

(** X8: observers are never behind.  If the latest signal sent, when
    there is one, carries the current temperature record, this is still
    so after any run of replies that return; and a run that sends no
    signal leaves the record unchanged. *)
Theorem replies_latest_signal
    (Float : Type) (toFloat : QString -> Float)
    (messages : list QString) (p p' : Plugin Float) :
  replies toFloat messages p = Some p' ->
  last (emitted p) (printerStatusChanged (printerStatus p))
  = printerStatusChanged (printerStatus p) ->
  last (emitted p') (printerStatusChanged (printerStatus p'))
  = printerStatusChanged (printerStatus p') /\
  (emitted p' = emitted p -> printerStatus p' = printerStatus p).
Proof.
  intros Hrun Hp. split.
  - exact (replies_latest _ toFloat messages p p' Hrun Hp).
  - intros Hsame.
    destruct (replies_emitted _ toFloat messages p p' Hrun) as (new & Hnew & Hlen).
    rewrite Hsame in Hnew. apply (f_equal (@length _)) in Hnew.
    rewrite length_app in Hnew.
    assert (Hzero : length (filter hasTemperature messages) = 0) by lia.
    rewrite (replies_plain _ toFloat messages p (filter_nil_forallb _ Hzero)) in Hrun.
    now injection Hrun as <-.
Qed.

Lemma replies_latest_signal_witness :
  last [printerStatusChanged reported] (printerStatusChanged reported)
  = printerStatusChanged reported /\
  ([printerStatusChanged reported] = emitted plugin0 ->
   reported = printerStatus plugin0).
Proof.
  apply (replies_latest_signal Q Decimal.toFloat
           ["ok"; bareReport; "wait"] plugin0
           (mkPlugin reported [printerStatusChanged reported]));
    vm_compute; reflexivity.
Defined.

(** ** Translation, byte for character *)

(** X9: with an ASCII-compatible encoder, a command of ASCII characters
    is written in ASCII bytes only, decoding the bytes gives the command
    back, and another ASCII command with the same bytes is the same
    command. *)
Theorem translate_ascii_round_trip
    (toLocal8Bit : QString -> QByteArray) (command : QString) :
  Local8Bit.asciiCompatible toLocal8Bit ->
  Local8Bit.isAscii command = true ->
  Forall (fun b => (Byte.to_N b < 128)%N) (translate toLocal8Bit command) /\
  string_of_list_byte (translate toLocal8Bit command) = command /\
  (forall other : QString,
     Local8Bit.isAscii other = true ->
     translate toLocal8Bit other = translate toLocal8Bit command ->
     other = command).
Proof.
  intros Hcodec Hascii. unfold translate. rewrite (Hcodec command Hascii).
  split; [|split].
  - unfold Local8Bit.codes. apply Forall_map. apply Forall_forall.
    intros c Hc. rewrite byte_of_ascii_to_N. apply N.ltb_lt.
    unfold Local8Bit.isAscii in Hascii.
    rewrite forallb_forall in Hascii. now apply Hascii.
  - apply string_of_list_byte_of_string.
  - intros other Hother H. rewrite (Hcodec other Hother) in H.
    apply (f_equal string_of_list_byte) in H.
    change (Local8Bit.codes other) with (list_byte_of_string other) in H.
    change (Local8Bit.codes command) with (list_byte_of_string command) in H.
    now rewrite !string_of_list_byte_of_string in H.
Qed.

Lemma translate_ascii_round_trip_witness :
  Forall (fun b => (Byte.to_N b < 128)%N) (translate Local8Bit.utf8 "M105") /\
  string_of_list_byte (translate Local8Bit.utf8 "M105") = "M105" /\
  (forall other : QString,
     Local8Bit.isAscii other = true ->
     translate Local8Bit.utf8 other = translate Local8Bit.utf8 "M105" ->
     other = "M105").
Proof.
  apply (translate_ascii_round_trip Local8Bit.utf8 "M105").
  - exact utf8_asciiCompatible.
  - reflexivity.
Defined.

(** ** Axes *)

Lemma combine_bounds (axes : list Axes.AXES) :
  (0 <= Axes.combine axes < 16)%Z.
Proof.
  induction axes as [|a axes IH]; [cbv; split; [discriminate | reflexivity]|].
  change (Axes.combine (a :: axes))
    with (Z.lor (Axes.value a) (Axes.combine axes)).
  set (m := Axes.combine axes) in *.
  assert (Hm : In m (map Z.of_nat (seq 0 16))).
  { replace m with (Z.of_nat (Z.to_nat m)) by lia.
    apply in_map, in_seq. lia. }
  clearbody m. simpl in Hm.
  destruct a; repeat (destruct Hm as [<-|Hm]; [cbv; split; congruence|]);
    contradiction.
Qed.

(** X10: the four axis flags encode sets of axes.  Any combination of
    axes fits the [uchar] argument of [home] (it is below 16), and an
    axis tests as present in a combination exactly when it was put in. *)
Theorem axes_combine_has (axes : list Axes.AXES) (a : Axes.AXES) :
  (0 <= Axes.combine axes < 16)%Z /\
  (Axes.has (Axes.combine axes) a = true <-> In a axes).
Proof.
  split; [apply combine_bounds|].
  unfold Axes.has. rewrite negb_true_iff, Z.eqb_neq.
  induction axes as [|b axes IH].
  - simpl. split; [intros H; now destruct a | tauto].
  - change (Axes.combine (b :: axes))
      with (Z.lor (Axes.value b) (Axes.combine axes)).
    rewrite Z.land_lor_distr_l.
    rewrite Z.lor_eq_0_iff. simpl In.
    assert (Hb : Z.land (Axes.value b) (Axes.value a) <> 0%Z <-> b = a)
      by (destruct a, b; cbv; split; congruence).
    split.
    + intros H.
      destruct (Z.eq_dec (Z.land (Axes.value b) (Axes.value a)) 0) as [E|E].
      * right. apply IH. intros E'. apply H. now split.
      * left. now apply Hb.
    + intros [Hba | Hin] [E E'].
      * now apply Hb in Hba.
      * now apply IH in Hin.
Qed.
